(** * Titan Memory: the semantic highlight sidecar service

    A shallow embedding of [highlight-service.py]: the process-wide model
    reference, the lifespan context manager, the two request handlers
    ([/highlight] and [/health]) and the [main] entry point, followed by
    the properties of the service's lifecycle and request contract. *)

From Stdlib Require Import PrimFloat ZArith.
From stdpp Require Import base option list strings gmap pretty.

Local Open Scope string_scope.
Local Open Scope list_scope.
Local Open Scope Z_scope.
Set Warnings "-register-all,-inexact-float".

(** ** Python values *)

(** The values that travel through the handlers: the entries of the dict
    returned by the model and the literals of the source. A Python [float]
    is an IEEE 754 binary64 number. *)
Inductive PyVal : Type :=
  | PyNone
  | PyBool (b : bool)
  | PyInt (z : Z)
  | PyFloat (f : float)
  | PyStr (s : string)
  | PyList (l : list PyVal).

(** What [_model.process] hands back: a dict with string keys, or some
    other object (on which [.get] is not defined). *)
Inductive PyObj : Type :=
  | ODict (d : gmap string PyVal)
  | OValue (v : PyVal).

(** ** Exceptions and results *)

Inductive Exn : Type :=
  | AttributeError (attr : string)
  | ValidationError (model : string)
  | SystemExit (code : Z)
  | ExternalError (what : string).

Inductive Result (A : Type) : Type :=
  | Returned (a : A)
  | Raised (e : Exn).
Arguments Returned {A} a.
Arguments Raised {A} e.

(** ** Request and response models (pydantic [BaseModel]s) *)

Record HighlightRequest : Type := mkHighlightRequest {
  question : string;
  context : string;
  threshold : float;
  return_sentence_metrics : bool
}.

Record HighlightResponse : Type := mkHighlightResponse {
  highlighted_sentences : list string;
  compression_rate : float;
  sentence_probabilities : list float
}.

(** The validators pydantic runs on the keyword arguments of
    [HighlightResponse(...)], one per annotated field type. They belong to
    the pydantic library, so they are an interface here. *)
Record Validators : Type := mkValidators {
  validate_list_str : PyVal -> option (list string);
  validate_float : PyVal -> option float;
  validate_list_float : PyVal -> option (list float)
}.

(** The validators accept a value that already has the annotated type and
    leave it as it is. *)
Record ValidatorsLawful (V : Validators) : Prop := mkValidatorsLawful {
  validate_list_str_typed :
    forall l, validate_list_str V (PyList (PyStr <$> l)) = Some l;
  validate_float_typed :
    forall f, validate_float V (PyFloat f) = Some f;
  validate_list_float_typed :
    forall l, validate_list_float V (PyList (PyFloat <$> l)) = Some l
}.

(** ** The model capability *)

(** The object [AutoModel.from_pretrained] returns, seen through the one
    method the service calls on it. *)
Record Model : Type := mkModel {
  model_name : string;
  process : string -> string -> float -> bool -> Result PyObj
}.

(** ** The host environment: [os], [torch], [transformers] *)

Record Env : Type := mkEnv {
  path_exists : string -> bool;
  cuda_is_available : bool;
  from_pretrained : string -> Result Model;
  cuda : Model -> Result Model;
  default_model_path : string
}.

(** ** Process-wide state and observable effects *)

(** The module global [_model] and the attribute [app.state.model_path]. *)
Record World : Type := mkWorld {
  _model : option Model;
  model_path : option string
}.

(** The state of the freshly imported module. *)
Definition initial_world : World :=
  {| _model := None; model_path := None |}.

(** Calls that leave the module, in the order they happen. *)
Inductive Event : Type :=
  | LogInfo (msg : string)
  | LogError (msg : string)
  | FromPretrained (path : string)
  | Cuda
  | Process (question context : string) (threshold : float)
      (return_sentence_metrics : bool)
  | UvicornRun (host : string) (port : Z).

(** ** The monad of the module's code: state, exceptions, event log *)

Definition M (A : Type) : Type := World -> Result A * World * list Event.

Definition ret {A} (a : A) : M A := fun w => (Returned a, w, []).

Definition bind {A B} (c : M A) (k : A -> M B) : M B := fun w =>
  match c w with
  | (Returned a, w1, t1) =>
      match k a w1 with
      | (r, w2, t2) => (r, w2, t1 ++ t2)
      end
  | (Raised e, w1, t1) => (Raised e, w1, t1)
  end.

Declare Scope py_scope.
Delimit Scope py_scope with py.
Notation "x <- c ;; k" := (bind c (fun x => k))
  (at level 100, c at next level, right associativity) : py_scope.
Notation "c ;;; k" := (bind c (fun _ => k))
  (at level 100, right associativity) : py_scope.
Local Open Scope py_scope.

Definition raise {A} (e : Exn) : M A := fun w => (Raised e, w, []).
Definition emit (ev : Event) : M unit := fun w => (Returned tt, w, [ev]).
Definition get_world : M World := fun w => (Returned w, w, []).
Definition put_world (w' : World) : M unit := fun _ => (Returned tt, w', []).

(** An external call: its event is logged, its result returned or raised. *)
Definition call {A} (ev : Event) (r : Result A) : M A :=
  fun w => (r, w, [ev]).

Definition outcome {A} (x : Result A * World * list Event) : Result A := x.1.1.
Definition world_after {A} (x : Result A * World * list Event) : World := x.1.2.
Definition events {A} (x : Result A * World * list Event) : list Event := x.2.

(** [global _model; _model = v] *)
Definition set_model (v : option Model) : M unit :=
  w <- get_world ;;
  put_world {| _model := v; model_path := model_path w |}.

(** [app.state.model_path = p] *)
Definition set_model_path (p : string) : M unit :=
  w <- get_world ;;
  put_world {| _model := _model w; model_path := Some p |}.

(** [logger.info] and [logger.error] *)
Definition logger_info (msg : string) : M unit := emit (LogInfo msg).
Definition logger_error (msg : string) : M unit := emit (LogError msg).

(** The Lifecycle Manager's pure query: is a model reference held? *)
Definition is_ready (w : World) : bool :=
  match _model w with Some _ => true | None => false end.

(** ** Constructing the pydantic models *)

(** The validators of the field types that only the request uses, [str]
    and [bool]; [float] is shared with the response. Like [Validators] they
    are pydantic's, and may coerce what they are given. *)
Record RequestValidators : Type := mkRequestValidators {
  validate_str : PyVal -> option string;
  validate_bool : PyVal -> option bool
}.

Record RequestValidatorsLawful (RV : RequestValidators) : Prop :=
  mkRequestValidatorsLawful {
  validate_str_typed : forall s, validate_str RV (PyStr s) = Some s;
  validate_bool_typed : forall b, validate_bool RV (PyBool b) = Some b
}.

(** A field declared with a default: the default when the key is absent
    (pydantic does not validate it), the validated value otherwise. *)
Definition field_with_default {A} (validate : PyVal -> option A) (dflt : A)
    (given : option PyVal) : option A :=
  match given with
  | None => Some dflt
  | Some v => validate v
  end.

(** [HighlightRequest] built from the request body, a JSON object whose
    values are still unvalidated: [question] and [context] are declared
    [Field(...)] (required); [threshold] and [return_sentence_metrics]
    carry the defaults [0.5] and [True]. A missing required key or a value
    its field rejects raises [ValidationError]. *)
Definition HighlightRequest_init (RV : RequestValidators) (V : Validators)
    (b : gmap string PyVal) : M HighlightRequest :=
  match b !! "question" ≫= validate_str RV,
        b !! "context" ≫= validate_str RV,
        field_with_default (validate_float V) 0.5%float (b !! "threshold"),
        field_with_default (validate_bool RV) true
          (b !! "return_sentence_metrics") with
  | Some q, Some c, Some t, Some r =>
      ret {| question := q;
             context := c;
             threshold := t;
             return_sentence_metrics := r |}
  | _, _, _, _ => raise (ValidationError "HighlightRequest")
  end.

(** [HighlightResponse(highlighted_sentences=hs, compression_rate=cr,
    sentence_probabilities=sp)]: every argument is validated against its
    field's annotation; one failure raises [ValidationError]. *)
Definition HighlightResponse_init (V : Validators) (hs cr sp : PyVal)
  : M HighlightResponse :=
  match validate_list_str V hs, validate_float V cr,
        validate_list_float V sp with
  | Some hs', Some cr', Some sp' =>
      ret {| highlighted_sentences := hs';
             compression_rate := cr';
             sentence_probabilities := sp' |}
  | _, _, _ => raise (ValidationError "HighlightResponse")
  end.

(** [result.get(key, dflt)] *)
Definition get (result : PyObj) (key : string) (dflt : PyVal) : M PyVal :=
  match result with
  | ODict d => ret (default dflt (d !! key))
  | OValue _ => raise (AttributeError "get")
  end.

(** [_model.process(question=q, context=c, threshold=t,
    return_sentence_metrics=r)]: the call made on the model, with the
    arguments it receives. *)
Definition call_process (m : Model) (q c : string) (t : float) (r : bool)
  : M PyObj :=
  call (Process q c t r) (process m q c t r).

(** Lines 90-94: the three keys read off the model's result and the
    response built from them. *)
Definition map_result (V : Validators) (result : PyObj)
  : M HighlightResponse :=
  hs <- get result "highlighted_sentences" (PyList []) ;;
  cr <- get result "compression_rate" (PyFloat 0.0%float) ;;
  sp <- get result "sentence_probabilities" (PyList []) ;;
  HighlightResponse_init V hs cr sp.

(** ** The service *)

Section Service.

Variable env : Env.
Variable V : Validators.
Variable RV : RequestValidators.

(** The part of [lifespan] before [yield]: load the model on startup. *)
Definition lifespan_startup : M unit :=
  w <- get_world ;;
  match model_path w with
  | None => raise (AttributeError "model_path")
  | Some p =>
      logger_info ("Loading Zilliz semantic-highlight model from: " +:+ p) ;;;
      m <- call (FromPretrained p) (from_pretrained env p) ;;
      set_model (Some m) ;;;
      if cuda_is_available env then
        w1 <- get_world ;;
        match _model w1 with
        | None => raise (AttributeError "cuda")
        | Some m1 =>
            m2 <- call Cuda (cuda env m1) ;;
            set_model (Some m2) ;;;
            logger_info "Model loaded on GPU"
        end
      else
        logger_info "Model loaded on CPU"
  end.

(** The part of [lifespan] after [yield]: cleanup. *)
Definition lifespan_cleanup : M unit :=
  set_model None ;;;
  logger_info "Model unloaded".

(** The context manager as a whole, around the serving of the application.
    There is no [try]/[finally] around [yield]: an exception raised while
    serving skips the cleanup. *)
Definition lifespan {A} (serving : M A) : M A :=
  lifespan_startup ;;;
  r <- serving ;;
  lifespan_cleanup ;;;
  ret r.

(** [POST /highlight] *)
Definition highlight (req : HighlightRequest) : M HighlightResponse :=
  w <- get_world ;;
  match _model w with
  | None =>
      HighlightResponse_init V (PyList []) (PyFloat 0.0%float) (PyList [])
  | Some m =>
      result <- call_process m (question req) (context req) (threshold req)
                  (return_sentence_metrics req) ;;
      hs <- get result "highlighted_sentences" (PyList []) ;;
      cr <- get result "compression_rate" (PyFloat 0.0%float) ;;
      sp <- get result "sentence_probabilities" (PyList []) ;;
      HighlightResponse_init V hs cr sp
  end.

(** [GET /health] *)
Definition health : M (gmap string PyVal) :=
  w <- get_world ;;
  ret (<["status" := PyStr "ok"]>
       (<["model_loaded" := PyBool (bool_decide (_model w ≠ None))]>
       (<["gpu_available" := PyBool (cuda_is_available env)]> ∅))).

(** The [/highlight] route: FastAPI builds the request model from the body,
    then calls the handler. *)
Definition post_highlight (b : gmap string PyVal) : M HighlightResponse :=
  req <- HighlightRequest_init RV V b ;;
  highlight req.

(** A command line that [argparse] accepts (each option given or not, the
    port an integer), and the namespace [parse_args] yields for it. *)
Record CommandLine : Type := mkCommandLine {
  opt_port : option Z;
  opt_model_path : option string;
  opt_host : option string
}.

Record Namespace : Type := mkNamespace {
  args_port : Z;
  args_model_path : string;
  args_host : string
}.

Definition parse_args (cl : CommandLine) : Namespace :=
  {| args_port := default 8079 (opt_port cl);
     args_model_path := default (default_model_path env) (opt_model_path cl);
     args_host := default "127.0.0.1" (opt_host cl) |}.

(** [uvicorn.run(app, host=..., port=..., log_level="info")]: the server
    is uvicorn's; while it runs it can drive the lifespan and the handlers,
    write the state, log, raise or exit. *)
Variable uvicorn_run : string -> Z -> M unit.

(** [parser.parse_args()] on the process's arguments: argparse accepts
    them, telling which of the three declared options were given, or exits
    by itself (status 2 on a usage error, 0 after [--help]). *)
Variable argparse : list string -> Result CommandLine.

(** [main] from line 118 on, for a command line that argparse accepted. *)
Definition main (cl : CommandLine) : M unit :=
  let args := parse_args cl in
  (if negb (path_exists env (args_model_path args)) then
     logger_error ("Model not found at: " +:+ args_model_path args) ;;;
     logger_error
       "Download it first: hf download zilliz/semantic-highlight-bilingual-v1" ;;;
     raise (SystemExit 1)
   else ret tt) ;;;
  set_model_path (args_model_path args) ;;;
  logger_info ("Starting Titan Highlight Service on " +:+ args_host args
               +:+ ":" +:+ pretty (args_port args)) ;;;
  emit (UvicornRun (args_host args) (args_port args)) ;;;
  uvicorn_run (args_host args) (args_port args).

(** [main] as a whole, on the arguments of the process. *)
Definition main_argv (argv : list string) : M unit :=
  match argparse argv with
  | Returned cl => main cl
  | Raised e => raise e
  end.

(** The status FastAPI answers with for a route handler's outcome: 200 when
    it returns, 500 when an exception leaves it. *)
Definition http_status {A} (r : Result A) : Z :=
  match r with
  | Returned _ => 200
  | Raised _ => 500
  end.

End Service.

(** ** Driving the service: repeated cleanups and request sequences *)

(** [n] cleanups in a row. *)
Fixpoint repeat_cleanup (n : nat) : M unit :=
  match n with
  | O => ret tt
  | S n' => lifespan_cleanup ;;; repeat_cleanup n'
  end.

Inductive Request : Type :=
  | PostHighlight (req : HighlightRequest)
  | GetHealth.

(** One request, its response dropped. *)
Definition handle (env : Env) (V : Validators) (r : Request)
  : World -> Result unit * World * list Event :=
  fun w =>
    match r with
    | PostHighlight req =>
        match highlight V req w with
        | (Returned _, w', t) => (Returned tt, w', t)
        | (Raised e, w', t) => (Raised e, w', t)
        end
    | GetHealth =>
        match health env w with
        | (Returned _, w', t) => (Returned tt, w', t)
        | (Raised e, w', t) => (Raised e, w', t)
        end
    end.

(** The state after a sequence of requests; a request that fails is
    answered with a server error and the next one is served. *)
Fixpoint serve (env : Env) (V : Validators) (rs : list Request) (w : World)
  : World :=
  match rs with
  | [] => w
  | r :: rs' => serve env V rs' (world_after (handle env V r w))
  end.

(** ** Concrete instances *)

(** Validators that accept exactly the values of the annotated type. *)
Fixpoint strict_list_str (l : list PyVal) : option (list string) :=
  match l with
  | [] => Some []
  | PyStr s :: l' => cons s <$> strict_list_str l'
  | _ :: _ => None
  end.

Fixpoint strict_list_float (l : list PyVal) : option (list float) :=
  match l with
  | [] => Some []
  | PyFloat f :: l' => cons f <$> strict_list_float l'
  | _ :: _ => None
  end.

Definition strict_validators : Validators :=
  {| validate_list_str v :=
       match v with PyList l => strict_list_str l | _ => None end;
     validate_float v :=
       match v with PyFloat f => Some f | _ => None end;
     validate_list_float v :=
       match v with PyList l => strict_list_float l | _ => None end |}.

(** The result of the specification's example. *)
Definition example_result : gmap string PyVal :=
  <["highlighted_sentences" := PyList [PyStr "A."; PyStr "B."]]>
  (<["compression_rate" := PyFloat 0.5%float]>
  (<["sentence_probabilities" :=
       PyList [PyFloat 0.9%float; PyFloat 0.1%float]]> ∅)).

(** A model that answers every call with [example_result]. *)
Definition example_model : Model :=
  {| model_name := "semantic-highlight-bilingual-v1";
     process _ _ _ _ := Returned (ODict example_result) |}.

(** A model whose result lacks [sentence_probabilities]. *)
Definition partial_model : Model :=
  {| model_name := "partial";
     process _ _ _ _ :=
       Returned (ODict (delete "sentence_probabilities" example_result)) |}.

(** A model whose scoring call raises. *)
Definition failing_model : Model :=
  {| model_name := "failing";
     process _ _ _ _ := Raised (ExternalError "RuntimeError") |}.

(** A host without GPU on which only [/models/shb] exists. *)
Definition example_env : Env :=
  {| path_exists p := bool_decide (p = "/models/shb");
     cuda_is_available := false;
     from_pretrained p :=
       if bool_decide (p = "/models/shb") then Returned example_model
       else Raised (ExternalError "OSError");
     cuda m := Returned m;
     default_model_path := "./models/semantic-highlight-bilingual-v1" |}.

Definition example_request : HighlightRequest :=
  {| question := "What is Titan?";
     context := "A. B. C. D.";
     threshold := 0.5%float;
     return_sentence_metrics := true |}.

Definition loaded_world (m : Model) : World :=
  {| _model := Some m; model_path := Some "/models/shb" |}.

(** A host with a GPU: [.cuda()] hands back the model under a new name. *)
Definition gpu_env : Env :=
  {| path_exists p := bool_decide (p = "/models/shb");
     cuda_is_available := true;
     from_pretrained p :=
       if bool_decide (p = "/models/shb") then Returned example_model
       else Raised (ExternalError "OSError");
     cuda m :=
       Returned {| model_name := model_name m +:+ "@cuda";
                   process := process m |};
     default_model_path := "./models/semantic-highlight-bilingual-v1" |}.

(** A host with a GPU on which moving the model fails. *)
Definition gpu_failing_env : Env :=
  {| path_exists p := bool_decide (p = "/models/shb");
     cuda_is_available := true;
     from_pretrained p :=
       if bool_decide (p = "/models/shb") then Returned example_model
       else Raised (ExternalError "OSError");
     cuda _ := Raised (ExternalError "OutOfMemoryError");
     default_model_path := "./models/semantic-highlight-bilingual-v1" |}.

(** A model that answers with a list instead of a dict. *)
Definition list_model : Model :=
  {| model_name := "list";
     process _ _ _ _ := Returned (OValue (PyList [PyStr "A."])) |}.

(** A model whose result carries [None] as the probability list. *)
Definition none_model : Model :=
  {| model_name := "none";
     process _ _ _ _ :=
       Returned (ODict (<["sentence_probabilities" := PyNone]> example_result)) |}.

(** Request validators that accept exactly the values of the declared
    type. *)
Definition strict_request_validators : RequestValidators :=
  {| validate_str v := match v with PyStr s => Some s | _ => None end;
     validate_bool v := match v with PyBool b => Some b | _ => None end |}.

(** A body with a threshold outside [0,1] and no metrics flag. *)
Definition example_body : gmap string PyVal :=
  <["question" := PyStr "q"]>
  (<["context" := PyStr "c"]>
  (<["threshold" := PyFloat 1.5%float]> ∅)).

(** A body without [context]. *)
Definition incomplete_body : gmap string PyVal :=
  <["question" := PyStr "q"]>
  (<["threshold" := PyFloat 0.5%float]>
  (<["return_sentence_metrics" := PyBool true]> ∅)).

(** A model that answers with what it was called with. *)
Definition echo_model : Model :=
  {| model_name := "echo";
     process q c t r :=
       Returned (ODict (<["highlighted_sentences" := PyList [PyStr q; PyStr c]]>
                       (<["compression_rate" := PyFloat t]> ∅))) |}.

(** A server that returns at once, and one that runs the lifespan around
    a body. *)
Definition stub_server : string -> Z -> M unit := fun _ _ => ret tt.

Definition lifespan_server (env : Env) (serving : M unit)
  : string -> Z -> M unit :=
  fun _ _ => lifespan env serving.

(** An argparse that knows [--model-path P] and [--help] only. *)
Definition example_argparse (argv : list string) : Result CommandLine :=
  match argv with
  | [] => Returned {| opt_port := None; opt_model_path := None;
                      opt_host := None |}
  | ["--model-path"; p] =>
      Returned {| opt_port := None; opt_model_path := Some p;
                  opt_host := None |}
  | ["--help"] => Raised (SystemExit 0)
  | _ => Raised (SystemExit 2)
  end.

(** The state [main] leaves when the path is in place. *)
Definition configured_world : World :=
  {| _model := None; model_path := Some "/models/shb" |}.

(** The line [lifespan] logs before loading from [p]. *)
Definition loading_message (p : string) : string :=
  "Loading Zilliz semantic-highlight model from: " +:+ p.

(** The response carrying the three defaults. *)
Definition degraded_response : HighlightResponse :=
  {| highlighted_sentences := [];
     compression_rate := 0.0%float;
     sentence_probabilities := [] |}.

(** * Properties *)

(** ** Basic facts about the instances and the monad *)

Lemma strict_list_str_typed (l : list string) :
  strict_list_str (PyStr <$> l) = Some l.
Proof.
  induction l as [|x l IH]; [reflexivity|].
  rewrite fmap_cons. cbn [strict_list_str]. rewrite IH. reflexivity.
Qed.

Lemma strict_list_float_typed (l : list float) :
  strict_list_float (PyFloat <$> l) = Some l.
Proof.
  induction l as [|x l IH]; [reflexivity|].
  rewrite fmap_cons. cbn [strict_list_float]. rewrite IH. reflexivity.
Qed.

Lemma strict_validators_lawful : ValidatorsLawful strict_validators.
Proof.
  split; simpl; intros.
  - apply strict_list_str_typed.
  - reflexivity.
  - apply strict_list_float_typed.
Qed.

(** The empty list and [0.0], as the source writes them, pass validation. *)
Lemma lawful_defaults (V : Validators) :
  ValidatorsLawful V ->
  validate_list_str V (PyList []) = Some [] /\
  validate_float V (PyFloat 0.0%float) = Some 0.0%float /\
  validate_list_float V (PyList []) = Some [].
Proof.
  intros [Hs Hf Hp]. repeat split.
  - exact (Hs []).
  - exact (Hf _).
  - exact (Hp []).
Qed.

Lemma HighlightResponse_init_defaults (V : Validators) (w : World) :
  ValidatorsLawful V ->
  HighlightResponse_init V (PyList []) (PyFloat 0.0%float) (PyList []) w
  = (Returned degraded_response, w, []).
Proof.
  intros HV. destruct (lawful_defaults V HV) as (Hs & Hf & Hp).
  unfold HighlightResponse_init. rewrite Hs, Hf, Hp. reflexivity.
Qed.

(** With no model held the handler is the construction of the literal
    response, whatever the request. *)
Lemma highlight_absent_unfold (V : Validators) (req : HighlightRequest)
    (w : World) :
  _model w = None ->
  highlight V req w
  = HighlightResponse_init V (PyList []) (PyFloat 0.0%float) (PyList []) w.
Proof.
  intros Hm. unfold highlight, bind, get_world. rewrite Hm.
  destruct (HighlightResponse_init V _ _ _ w) as [[r w'] t].
  reflexivity.
Qed.

(** With a model held the handler calls it once and maps its result. *)
Lemma highlight_present_unfold (V : Validators) (req : HighlightRequest)
    (w : World) (m : Model) :
  _model w = Some m ->
  highlight V req w
  = (result <- call_process m (question req) (context req) (threshold req)
                 (return_sentence_metrics req) ;;
     hs <- get result "highlighted_sentences" (PyList []) ;;
     cr <- get result "compression_rate" (PyFloat 0.0%float) ;;
     sp <- get result "sentence_probabilities" (PyList []) ;;
     HighlightResponse_init V hs cr sp) w.
Proof.
  intros Hm. unfold highlight at 1. unfold bind at 1, get_world.
  rewrite Hm.
  match goal with |- match ?x with _ => _ end = _ =>
    destruct x as [[r w'] t] end.
  reflexivity.
Qed.

(** Reading the three keys and building the response touches neither the
    state nor the outside. *)
Lemma map_result_pure (V : Validators) (result : PyObj) (w : World) :
  exists r,
    (hs <- get result "highlighted_sentences" (PyList []) ;;
     cr <- get result "compression_rate" (PyFloat 0.0%float) ;;
     sp <- get result "sentence_probabilities" (PyList []) ;;
     HighlightResponse_init V hs cr sp) w = (r, w, []).
Proof.
  unfold bind, get, ret, raise, HighlightResponse_init.
  destruct result as [d|v]; [|eauto].
  set (a := validate_list_str V _).
  set (b := validate_float V _).
  set (c := validate_list_float V _).
  destruct a, b, c; eauto.
Qed.

(** With a model held, a request is one call of the model with the
    request's four fields, and no change of state. *)
Lemma highlight_present_shape (V : Validators) (req : HighlightRequest)
    (w : World) (m : Model) :
  _model w = Some m ->
  exists r,
    highlight V req w
    = (r, w, [Process (question req) (context req) (threshold req)
                (return_sentence_metrics req)]).
Proof.
  intros Hm. rewrite (highlight_present_unfold V req w m Hm).
  unfold bind at 1. unfold call_process, call.
  destruct (process m _ _ _ _) as [res|e]; [|eauto].
  destruct (map_result_pure V res w) as [r Hr].
  rewrite Hr. eauto.
Qed.

(** With a model held, the handler's outcome is read off what the model
    returns for the request's four fields. *)
Lemma highlight_present_run (V : Validators) (req : HighlightRequest)
    (w : World) (m : Model) :
  _model w = Some m ->
  highlight V req w
  = (match process m (question req) (context req) (threshold req)
             (return_sentence_metrics req) with
     | Raised e => Raised e
     | Returned result => outcome (map_result V result w)
     end,
     w,
     [Process (question req) (context req) (threshold req)
        (return_sentence_metrics req)]).
Proof.
  intros Hm. rewrite (highlight_present_unfold V req w m Hm).
  unfold bind at 1. unfold call_process, call.
  destruct (process m _ _ _ _) as [res|e]; [|reflexivity].
  destruct (map_result_pure V res w) as [r Hr].
  unfold map_result. rewrite Hr. reflexivity.
Qed.

(** Building the request model touches neither the state nor the
    outside. *)
Lemma HighlightRequest_init_pure (RV : RequestValidators) (V : Validators)
    (b : gmap string PyVal) (w : World) :
  exists r, HighlightRequest_init RV V b w = (r, w, []).
Proof.
  unfold HighlightRequest_init, ret, raise.
  destruct (b !! "question" ≫= validate_str RV),
    (b !! "context" ≫= validate_str RV),
    (field_with_default (validate_float V) 0.5%float (b !! "threshold")),
    (field_with_default (validate_bool RV) true
       (b !! "return_sentence_metrics")); eauto.
Qed.

(** What a request model that was built holds: each field is what its
    validator made of the body's value, or the declared default where the
    body has no such key. *)
Lemma HighlightRequest_init_returned (RV : RequestValidators)
    (V : Validators) (b : gmap string PyVal) (w w' : World)
    (t : list Event) (req : HighlightRequest) :
  HighlightRequest_init RV V b w = (Returned req, w', t) ->
  b !! "question" ≫= validate_str RV = Some (question req) /\
  b !! "context" ≫= validate_str RV = Some (context req) /\
  field_with_default (validate_float V) 0.5%float (b !! "threshold")
    = Some (threshold req) /\
  field_with_default (validate_bool RV) true
    (b !! "return_sentence_metrics") = Some (return_sentence_metrics req).
Proof.
  unfold HighlightRequest_init, ret, raise.
  destruct (b !! "question" ≫= validate_str RV),
    (b !! "context" ≫= validate_str RV),
    (field_with_default (validate_float V) 0.5%float (b !! "threshold")),
    (field_with_default (validate_bool RV) true
       (b !! "return_sentence_metrics")); try discriminate.
  intros H. injection H as <- _ _. repeat split.
Qed.

(** The route with a model held: whatever request model the body yields,
    the model is called with exactly its four fields. *)
Lemma post_highlight_run (V : Validators) (RV : RequestValidators)
    (b : gmap string PyVal) (w : World) (m : Model)
    (req : HighlightRequest) :
  _model w = Some m ->
  HighlightRequest_init RV V b w = (Returned req, w, []) ->
  post_highlight V RV b w
  = (match process m (question req) (context req) (threshold req)
             (return_sentence_metrics req) with
     | Raised e => Raised e
     | Returned result => outcome (map_result V result w)
     end,
     w,
     [Process (question req) (context req) (threshold req)
        (return_sentence_metrics req)]).
Proof.
  intros Hm Hreq. unfold post_highlight. unfold bind at 1. rewrite Hreq.
  rewrite (highlight_present_run V req w m Hm). reflexivity.
Qed.

(** ** The degraded response *)

(** C1. While no model reference is held, [/highlight] answers every
    request with exactly the degraded response (no highlighted sentences,
    compression rate 0.0, no probabilities) as a returned value, hence
    HTTP 200, and the model capability is not invoked: the handler's event
    log is empty and the state is as before. *)
Theorem highlight_model_absent (V : Validators) (req : HighlightRequest)
    (w : World) :
  ValidatorsLawful V ->
  _model w = None ->
  highlight V req w = (Returned degraded_response, w, []) /\
  http_status (outcome (highlight V req w)) = 200 /\
  highlighted_sentences degraded_response = [] /\
  compression_rate degraded_response = 0.0%float /\
  sentence_probabilities degraded_response = [].
Proof.
  intros HV Hm.
  rewrite (highlight_absent_unfold V req w Hm).
  rewrite (HighlightResponse_init_defaults V w HV).
  repeat split.
Qed.

Lemma highlight_model_absent_witness :
  highlight strict_validators example_request initial_world
  = (Returned degraded_response, initial_world, []).
Proof.
  apply (highlight_model_absent strict_validators example_request
           initial_world strict_validators_lawful).
  reflexivity.
Defined.

(** C10. While no model reference is held, two requests of any content
    get the same response: same outcome, same state, same events. *)
Theorem highlight_absent_request_independent (V : Validators)
    (req1 req2 : HighlightRequest) (w : World) :
  _model w = None ->
  highlight V req1 w = highlight V req2 w.
Proof.
  intros Hm.
  rewrite (highlight_absent_unfold V req1 w Hm).
  rewrite (highlight_absent_unfold V req2 w Hm).
  reflexivity.
Qed.

Lemma highlight_absent_request_independent_witness :
  highlight strict_validators example_request initial_world
  = highlight strict_validators
      {| question := ""; context := "zzz"; threshold := 7.5%float;
         return_sentence_metrics := false |}
      initial_world.
Proof.
  apply (highlight_absent_request_independent strict_validators
           example_request _ initial_world).
  reflexivity.
Defined.

(** ** Mapping the model's result *)

(** The handler's result once the model has returned the dict [d]. *)
Lemma highlight_dict (V : Validators) (req : HighlightRequest) (w : World)
    (m : Model) (d : gmap string PyVal) :
  _model w = Some m ->
  process m (question req) (context req) (threshold req)
    (return_sentence_metrics req) = Returned (ODict d) ->
  highlight V req w
  = (match HighlightResponse_init V
             (default (PyList []) (d !! "highlighted_sentences"))
             (default (PyFloat 0.0%float) (d !! "compression_rate"))
             (default (PyList []) (d !! "sentence_probabilities")) w with
     | (r, _, _) => r
     end,
     w,
     [Process (question req) (context req) (threshold req)
        (return_sentence_metrics req)]).
Proof.
  intros Hm Hp. rewrite (highlight_present_unfold V req w m Hm).
  unfold bind, call_process, call, get, ret. rewrite Hp.
  unfold HighlightResponse_init, ret, raise.
  set (a := validate_list_str V _).
  set (b := validate_float V _).
  set (c := validate_list_float V _).
  destruct a, b, c; reflexivity.
Qed.

(** C2. With a model held, whose result is a dict in which every key that
    is present carries a value its field accepts, the handler returns a
    response (it does not raise), and each key that is missing shows up as
    its default: no highlighted sentences, compression rate 0.0, no
    probabilities. A key that is present contributes its validated value. *)
Theorem highlight_fills_missing_keys (V : Validators)
    (req : HighlightRequest) (w : World) (m : Model)
    (d : gmap string PyVal) :
  ValidatorsLawful V ->
  _model w = Some m ->
  process m (question req) (context req) (threshold req)
    (return_sentence_metrics req) = Returned (ODict d) ->
  (forall v, d !! "highlighted_sentences" = Some v ->
             is_Some (validate_list_str V v)) ->
  (forall v, d !! "compression_rate" = Some v ->
             is_Some (validate_float V v)) ->
  (forall v, d !! "sentence_probabilities" = Some v ->
             is_Some (validate_list_float V v)) ->
  exists resp : HighlightResponse,
    outcome (highlight V req w) = Returned resp /\
    (d !! "highlighted_sentences" = None ->
       highlighted_sentences resp = []) /\
    (d !! "compression_rate" = None ->
       compression_rate resp = 0.0%float) /\
    (d !! "sentence_probabilities" = None ->
       sentence_probabilities resp = []) /\
    (forall v, d !! "highlighted_sentences" = Some v ->
       validate_list_str V v = Some (highlighted_sentences resp)) /\
    (forall v, d !! "compression_rate" = Some v ->
       validate_float V v = Some (compression_rate resp)) /\
    (forall v, d !! "sentence_probabilities" = Some v ->
       validate_list_float V v = Some (sentence_probabilities resp)).
Proof.
  intros HV Hm Hp Hhs Hcr Hsp.
  destruct (lawful_defaults V HV) as (Ds & Df & Dp).
  rewrite (highlight_dict V req w m d Hm Hp).
  unfold outcome, HighlightResponse_init, ret, raise. simpl.
  assert (Ehs : exists x,
    validate_list_str V (default (PyList []) (d !! "highlighted_sentences"))
    = Some x).
  { destruct (d !! "highlighted_sentences") as [v|] eqn:E; simpl.
    - destruct (Hhs v eq_refl) as [x Hx]. eauto.
    - eauto. }
  assert (Ecr : exists x,
    validate_float V (default (PyFloat 0.0%float) (d !! "compression_rate"))
    = Some x).
  { destruct (d !! "compression_rate") as [v|] eqn:E; simpl.
    - destruct (Hcr v eq_refl) as [x Hx]. eauto.
    - eauto. }
  assert (Esp : exists x,
    validate_list_float V
      (default (PyList []) (d !! "sentence_probabilities")) = Some x).
  { destruct (d !! "sentence_probabilities") as [v|] eqn:E; simpl.
    - destruct (Hsp v eq_refl) as [x Hx]. eauto.
    - eauto. }
  destruct Ehs as [hs Ehs], Ecr as [cr Ecr], Esp as [sp Esp].
  rewrite Ehs, Ecr, Esp. eexists. split; [reflexivity|]. simpl.
  repeat split.
  - intros E. rewrite E in Ehs. simpl in Ehs. congruence.
  - intros E. rewrite E in Ecr. simpl in Ecr. congruence.
  - intros E. rewrite E in Esp. simpl in Esp. congruence.
  - intros v E. rewrite E in Ehs. exact Ehs.
  - intros v E. rewrite E in Ecr. exact Ecr.
  - intros v E. rewrite E in Esp. exact Esp.
Qed.

(** Leaving a key out is the same as giving it its default: the outcome on
    [d] is the outcome on [d] completed with the three defaults. *)
Lemma highlight_missing_keys_as_defaults (V : Validators)
    (req : HighlightRequest) (w w' : World) (m m' : Model)
    (d : gmap string PyVal) :
  let defaults : gmap string PyVal :=
    <["highlighted_sentences" := PyList []]>
    (<["compression_rate" := PyFloat 0.0%float]>
    (<["sentence_probabilities" := PyList []]> ∅)) in
  _model w = Some m ->
  _model w' = Some m' ->
  process m (question req) (context req) (threshold req)
    (return_sentence_metrics req) = Returned (ODict d) ->
  process m' (question req) (context req) (threshold req)
    (return_sentence_metrics req) = Returned (ODict (d ∪ defaults)) ->
  outcome (highlight V req w) = outcome (highlight V req w').
Proof.
  intros defaults Hm Hm' Hp Hp'.
  rewrite (highlight_dict V req w m d Hm Hp).
  rewrite (highlight_dict V req w' m' (d ∪ defaults) Hm' Hp').
  assert (E1 : default (PyList []) ((d ∪ defaults) !! "highlighted_sentences")
               = default (PyList []) (d !! "highlighted_sentences")).
  { rewrite lookup_union.
    destruct (d !! "highlighted_sentences"); reflexivity. }
  assert (E2 : default (PyFloat 0.0%float)
                 ((d ∪ defaults) !! "compression_rate")
               = default (PyFloat 0.0%float) (d !! "compression_rate")).
  { rewrite lookup_union.
    destruct (d !! "compression_rate"); reflexivity. }
  assert (E3 : default (PyList [])
                 ((d ∪ defaults) !! "sentence_probabilities")
               = default (PyList []) (d !! "sentence_probabilities")).
  { rewrite lookup_union.
    destruct (d !! "sentence_probabilities"); reflexivity. }
  rewrite E1, E2, E3. unfold outcome, HighlightResponse_init, ret, raise.
  set (a := validate_list_str V _).
  set (b := validate_float V _).
  set (c := validate_list_float V _).
  destruct a, b, c; reflexivity.
Qed.

Lemma example_result_lookups :
  example_result !! "highlighted_sentences"
    = Some (PyList [PyStr "A."; PyStr "B."]) /\
  example_result !! "compression_rate" = Some (PyFloat 0.5%float) /\
  example_result !! "sentence_probabilities"
    = Some (PyList [PyFloat 0.9%float; PyFloat 0.1%float]).
Proof. repeat split; vm_compute; reflexivity. Qed.

Lemma partial_result_lookups :
  let d := delete "sentence_probabilities" example_result in
  d !! "highlighted_sentences" = Some (PyList [PyStr "A."; PyStr "B."]) /\
  d !! "compression_rate" = Some (PyFloat 0.5%float) /\
  d !! "sentence_probabilities" = None.
Proof. repeat split; vm_compute; reflexivity. Qed.

(** A result without [sentence_probabilities] is answered with the empty
    probability list. *)
Lemma highlight_fills_missing_keys_witness :
  exists resp : HighlightResponse,
    outcome (highlight strict_validators example_request
               (loaded_world partial_model)) = Returned resp /\
    sentence_probabilities resp = [].
Proof.
  destruct partial_result_lookups as (L1 & L2 & L3).
  destruct (highlight_fills_missing_keys strict_validators example_request
              (loaded_world partial_model) partial_model
              (delete "sentence_probabilities" example_result)
              strict_validators_lawful eq_refl eq_refl)
    as (resp & Hr & _ & _ & Hsp & _).
  - intros v Hv. rewrite L1 in Hv. injection Hv as <-. simpl. eauto.
  - intros v Hv. rewrite L2 in Hv. injection Hv as <-. simpl. eauto.
  - intros v Hv. rewrite L3 in Hv. discriminate.
  - exists resp. split; [exact Hr | exact (Hsp L3)].
Defined.

(** C4. With a model held, whose result has all three keys with values of
    the declared types, the response carries exactly those values, the
    state is untouched and the model was called once. *)
Theorem highlight_complete_result_unchanged (V : Validators)
    (req : HighlightRequest) (w : World) (m : Model)
    (d : gmap string PyVal)
    (hs : list string) (cr : float) (sp : list float) :
  ValidatorsLawful V ->
  _model w = Some m ->
  process m (question req) (context req) (threshold req)
    (return_sentence_metrics req) = Returned (ODict d) ->
  d !! "highlighted_sentences" = Some (PyList (PyStr <$> hs)) ->
  d !! "compression_rate" = Some (PyFloat cr) ->
  d !! "sentence_probabilities" = Some (PyList (PyFloat <$> sp)) ->
  highlight V req w
  = (Returned {| highlighted_sentences := hs;
                 compression_rate := cr;
                 sentence_probabilities := sp |},
     w,
     [Process (question req) (context req) (threshold req)
        (return_sentence_metrics req)]).
Proof.
  intros [Hs Hf Hl] Hm Hp Ehs Ecr Esp.
  rewrite (highlight_dict V req w m d Hm Hp).
  rewrite Ehs, Ecr, Esp. simpl default.
  unfold HighlightResponse_init. rewrite Hs, Hf, Hl. reflexivity.
Qed.

(** The specification's example: threshold 0.5 and the result
    [{highlighted_sentences: ["A.", "B."], compression_rate: 0.5,
    sentence_probabilities: [0.9, 0.1]}]. *)
Lemma highlight_complete_result_unchanged_witness :
  threshold example_request = 0.5%float /\
  highlight strict_validators example_request (loaded_world example_model)
  = (Returned {| highlighted_sentences := ["A."; "B."];
                 compression_rate := 0.5%float;
                 sentence_probabilities := [0.9%float; 0.1%float] |},
     loaded_world example_model,
     [Process "What is Titan?" "A. B. C. D." 0.5%float true]).
Proof.
  split; [reflexivity|].
  destruct example_result_lookups as (L1 & L2 & L3).
  exact (highlight_complete_result_unchanged strict_validators
           example_request (loaded_world example_model) example_model
           example_result ["A."; "B."] 0.5%float [0.9%float; 0.1%float]
           strict_validators_lawful eq_refl eq_refl L1 L2 L3).
Defined.

(** ** Failures of the model *)

(** C6. With a model held, an exception raised by the scoring call leaves
    the handler as it is: the same exception, after a single call of the
    model (no retry), answered as a server error, and the state, the model
    reference included, is as before the request. *)
Theorem highlight_propagates_model_failure (V : Validators)
    (req : HighlightRequest) (w : World) (m : Model) (e : Exn) :
  _model w = Some m ->
  process m (question req) (context req) (threshold req)
    (return_sentence_metrics req) = Raised e ->
  highlight V req w
  = (Raised e, w,
     [Process (question req) (context req) (threshold req)
        (return_sentence_metrics req)]) /\
  http_status (outcome (highlight V req w)) = 500 /\
  _model (world_after (highlight V req w)) = Some m.
Proof.
  intros Hm Hp.
  assert (E : highlight V req w
              = (Raised e, w,
                 [Process (question req) (context req) (threshold req)
                    (return_sentence_metrics req)])).
  { rewrite (highlight_present_unfold V req w m Hm).
    unfold bind at 1. unfold call_process, call. rewrite Hp. reflexivity. }
  rewrite E. repeat split. exact Hm.
Qed.

Lemma highlight_propagates_model_failure_witness :
  highlight strict_validators example_request (loaded_world failing_model)
  = (Raised (ExternalError "RuntimeError"), loaded_world failing_model,
     [Process "What is Titan?" "A. B. C. D." 0.5%float true]).
Proof.
  apply (highlight_propagates_model_failure strict_validators
           example_request (loaded_world failing_model) failing_model
           (ExternalError "RuntimeError") eq_refl eq_refl).
Defined.

(** ** Inputs reach the model as they are *)

(** C7. With a model held, a request body whose [question] and [context]
    are the strings [q] and [c], whose [threshold], where given, is a float
    and whose [return_sentence_metrics], where given, is a bool, yields the
    request model with exactly these values, [0.5] and [True] standing in
    for what the body leaves out; and the model is called once, on exactly
    these four values: the handler's outcome is what [process] returns for
    them, mapped into the response. The threshold is any float, inside
    [0,1] or not. *)
Theorem post_highlight_passes_inputs (V : Validators)
    (RV : RequestValidators) (b : gmap string PyVal) (q c : string)
    (ot : option float) (orr : option bool) (w : World) (m : Model) :
  ValidatorsLawful V ->
  RequestValidatorsLawful RV ->
  _model w = Some m ->
  b !! "question" = Some (PyStr q) ->
  b !! "context" = Some (PyStr c) ->
  b !! "threshold" = PyFloat <$> ot ->
  b !! "return_sentence_metrics" = PyBool <$> orr ->
  HighlightRequest_init RV V b w
  = (Returned {| question := q;
                 context := c;
                 threshold := default 0.5%float ot;
                 return_sentence_metrics := default true orr |},
     w, []) /\
  post_highlight V RV b w
  = (match process m q c (default 0.5%float ot) (default true orr) with
     | Raised e => Raised e
     | Returned result => outcome (map_result V result w)
     end,
     w,
     [Process q c (default 0.5%float ot) (default true orr)]).
Proof.
  intros [_ Hf _] [Hs Hb] Hm Hq Hc Ht Hr.
  assert (Ereq : HighlightRequest_init RV V b w
    = (Returned {| question := q;
                   context := c;
                   threshold := default 0.5%float ot;
                   return_sentence_metrics := default true orr |},
       w, [])).
  { unfold HighlightRequest_init. rewrite Hq, Hc, Ht, Hr. simpl.
    rewrite !Hs.
    assert (Et : field_with_default (validate_float V) 0.5%float
                   (PyFloat <$> ot) = Some (default 0.5%float ot)).
    { destruct ot as [t|]; simpl; [apply Hf | reflexivity]. }
    assert (Er : field_with_default (validate_bool RV) true
                   (PyBool <$> orr) = Some (default true orr)).
    { destruct orr as [r|]; simpl; [apply Hb | reflexivity]. }
    rewrite Et, Er. reflexivity. }
  split; [exact Ereq|].
  exact (post_highlight_run V RV b w m _ Hm Ereq).
Qed.

Lemma strict_request_validators_lawful :
  RequestValidatorsLawful strict_request_validators.
Proof. split; reflexivity. Qed.

Lemma example_body_lookups :
  example_body !! "question" = Some (PyStr "q") /\
  example_body !! "context" = Some (PyStr "c") /\
  example_body !! "threshold" = Some (PyFloat 1.5%float) /\
  example_body !! "return_sentence_metrics" = None.
Proof. repeat split; vm_compute; reflexivity. Qed.

(** A threshold of 1.5 reaches the model as 1.5: the model that echoes its
    arguments reports it back. *)
Lemma post_highlight_passes_inputs_witness :
  post_highlight strict_validators strict_request_validators example_body
    (loaded_world echo_model)
  = (Returned {| highlighted_sentences := ["q"; "c"];
                 compression_rate := 1.5%float;
                 sentence_probabilities := [] |},
     loaded_world echo_model,
     [Process "q" "c" 1.5%float true]).
Proof.
  destruct example_body_lookups as (Lq & Lc & Lt & Lr).
  destruct (post_highlight_passes_inputs strict_validators
              strict_request_validators example_body "q" "c"
              (Some 1.5%float) None (loaded_world echo_model) echo_model
              strict_validators_lawful strict_request_validators_lawful
              eq_refl Lq Lc Lt Lr) as [_ H].
  rewrite H. vm_compute. reflexivity.
Defined.

(** ** Lifecycle *)

Lemma is_ready_spec (w : World) :
  is_ready w = bool_decide (_model w ≠ None).
Proof. unfold is_ready. destruct (_model w); reflexivity. Qed.

Lemma lifespan_cleanup_run (w : World) :
  lifespan_cleanup w
  = (Returned tt, {| _model := None; model_path := model_path w |},
     [LogInfo "Model unloaded"]).
Proof. reflexivity. Qed.

Lemma repeat_cleanup_S (n : nat) (w : World) :
  repeat_cleanup (S n) w
  = match repeat_cleanup n {| _model := None; model_path := model_path w |}
    with
    | (r, w2, t2) => (r, w2, LogInfo "Model unloaded" :: t2)
    end.
Proof. reflexivity. Qed.

(** A startup that returns has stored a model. *)
Lemma lifespan_startup_returned (env : Env) (w w' : World)
    (t : list Event) :
  lifespan_startup env w = (Returned tt, w', t) ->
  exists m, _model w' = Some m.
Proof.
  unfold lifespan_startup, bind, get_world.
  destruct (model_path w) as [p|]; [|discriminate].
  unfold logger_info, emit, call, set_model, bind, get_world, put_world.
  destruct (from_pretrained env p) as [m|e]; [|discriminate].
  destruct (cuda_is_available env); simpl.
  - destruct (cuda env m) as [m2|e]; [|discriminate].
    intros H. injection H as <- _. simpl. eauto.
  - intros H. injection H as <- _. simpl. eauto.
Qed.

(** C3. In every state [/health] returns (HTTP 200) a body whose [status]
    is ["ok"] and whose [model_loaded] is true exactly when a model
    reference is held. The reference is held after a startup that returned
    and is not held in the initial state or after the cleanup, so
    [model_loaded] is true in the first case and false in the other two. *)
Theorem health_reports_model_state (env : Env) :
  (forall w, exists body,
     health env w = (Returned body, w, []) /\
     http_status (outcome (health env w)) = 200 /\
     body !! "status" = Some (PyStr "ok") /\
     body !! "model_loaded" = Some (PyBool (is_ready w)) /\
     (is_ready w = true <-> exists m, _model w = Some m)) /\
  is_ready initial_world = false /\
  (forall w w' t,
     lifespan_startup env w = (Returned tt, w', t) -> is_ready w' = true) /\
  (forall w, is_ready (world_after (lifespan_cleanup w)) = false).
Proof.
  split; [|split; [reflexivity|split]].
  - intros w. eexists. split; [reflexivity|].
    split; [reflexivity|]. split; [reflexivity|]. split.
    + rewrite lookup_insert_ne by discriminate.
      rewrite lookup_insert_eq. rewrite is_ready_spec. reflexivity.
    + unfold is_ready. destruct (_model w) as [m|].
      * split; eauto.
      * split; [discriminate|]. intros [m Hm]. discriminate.
  - intros w w' t H.
    destruct (lifespan_startup_returned env w w' t H) as [m Hm].
    unfold is_ready. rewrite Hm. reflexivity.
  - intros w. reflexivity.
Qed.

(** A startup that succeeds, and what [/health] says after it. *)
Lemma health_reports_model_state_witness :
  is_ready
    (world_after
       (lifespan_startup example_env
          {| _model := None; model_path := Some "/models/shb" |})) = true.
Proof.
  destruct (health_reports_model_state example_env) as (_ & _ & Hstart & _).
  apply (Hstart {| _model := None; model_path := Some "/models/shb" |}
           (loaded_world example_model)
           [LogInfo
              "Loading Zilliz semantic-highlight model from: /models/shb";
            FromPretrained "/models/shb";
            LogInfo "Model loaded on CPU"]).
  reflexivity.
Defined.

(** A whole life of the service: start, one request, stop. *)
Example lifespan_around_one_request :
  lifespan example_env (highlight strict_validators example_request)
    {| _model := None; model_path := Some "/models/shb" |}
  = (Returned {| highlighted_sentences := ["A."; "B."];
                 compression_rate := 0.5%float;
                 sentence_probabilities := [0.9%float; 0.1%float] |},
     {| _model := None; model_path := Some "/models/shb" |},
     [LogInfo "Loading Zilliz semantic-highlight model from: /models/shb";
      FromPretrained "/models/shb";
      LogInfo "Model loaded on CPU";
      Process "What is Titan?" "A. B. C. D." 0.5%float true;
      LogInfo "Model unloaded"]).
Proof. vm_compute. reflexivity. Qed.

(** C8. The cleanup clears the model reference in every state, returns
    without raising also when the reference is already cleared, and after
    any number (one or more) of cleanups in a row no model is held; a
    second cleanup leaves the state of the first. *)
Theorem lifespan_cleanup_idempotent (w : World) :
  _model (world_after (lifespan_cleanup w)) = None /\
  (_model w = None ->
     outcome (lifespan_cleanup w) = Returned tt /\
     world_after (lifespan_cleanup w) = w) /\
  world_after (lifespan_cleanup (world_after (lifespan_cleanup w)))
    = world_after (lifespan_cleanup w) /\
  (forall n : nat,
     outcome (repeat_cleanup (S n) w) = Returned tt /\
     is_ready (world_after (repeat_cleanup (S n) w)) = false).
Proof.
  split; [reflexivity|]. split; [|split; [reflexivity|]].
  - intros Hm. split; [reflexivity|].
    destruct w as [mo mp]. simpl in Hm. subst mo. reflexivity.
  - assert (Hn : forall (n : nat) (w0 : World),
      _model w0 = None ->
      outcome (repeat_cleanup n w0) = Returned tt /\
      _model (world_after (repeat_cleanup n w0)) = None).
    { induction n as [|n IH]; intros w0 H0.
      - split; [reflexivity | exact H0].
      - rewrite repeat_cleanup_S.
        destruct (IH {| _model := None; model_path := model_path w0 |}
                    eq_refl) as [Ho Hw].
        destruct (repeat_cleanup n _) as [[r w2] t2].
        unfold outcome, world_after in *. simpl in *. auto. }
    intros n. rewrite repeat_cleanup_S.
    destruct (Hn n {| _model := None; model_path := model_path w |}
                eq_refl) as [Ho Hw].
    destruct (repeat_cleanup n _) as [[r w2] t2].
    unfold outcome, world_after, is_ready in *. simpl in *.
    rewrite Hw. auto.
Qed.

Lemma lifespan_cleanup_idempotent_witness :
  outcome (lifespan_cleanup initial_world) = Returned tt /\
  world_after (lifespan_cleanup initial_world) = initial_world.
Proof.
  destruct (lifespan_cleanup_idempotent initial_world) as (_ & H & _).
  apply H. reflexivity.
Defined.

(** ** Handlers leave the state alone *)

Lemma highlight_world (V : Validators) (req : HighlightRequest) (w : World) :
  world_after (highlight V req w) = w.
Proof.
  destruct (_model w) as [m|] eqn:Hm.
  - destruct (highlight_present_shape V req w m Hm) as [r Hr].
    rewrite Hr. reflexivity.
  - rewrite (highlight_absent_unfold V req w Hm).
    unfold HighlightResponse_init, ret, raise.
    set (a := validate_list_str V _).
    set (b := validate_float V _).
    set (c := validate_list_float V _).
    destruct a, b, c; reflexivity.
Qed.

Lemma handle_world (env : Env) (V : Validators) (r : Request) (w : World) :
  world_after (handle env V r w) = w.
Proof.
  destruct r as [req|]; unfold handle.
  - pose proof (highlight_world V req w) as H.
    destruct (highlight V req w) as [[[a|e] w'] t]; exact H.
  - reflexivity.
Qed.

(** C9. No request handler writes the process-wide state: after
    [/highlight] (with or without a model, whether it returns or raises),
    after [/health], after the whole [/highlight] route and after any
    sequence of requests the state is the one before, and [/health] makes
    no outside call either. The lifespan is what writes the model
    reference: its cleanup replaces a held reference by none. *)
Theorem handlers_preserve_state :
  (forall V req w, world_after (highlight V req w) = w) /\
  (forall V RV b w, world_after (post_highlight V RV b w) = w) /\
  (forall env w, world_after (health env w) = w /\ events (health env w) = []) /\
  (forall env V rs w, serve env V rs w = w) /\
  (forall m mp,
     world_after (lifespan_cleanup {| _model := Some m; model_path := mp |})
     <> {| _model := Some m; model_path := mp |}).
Proof.
  split; [exact highlight_world|]. split; [|split; [|split]].
  - intros V RV b w. unfold post_highlight, bind.
    destruct (HighlightRequest_init_pure RV V b w) as [[req|e] Hreq];
      rewrite Hreq; [|reflexivity].
    pose proof (highlight_world V req w) as H.
    destruct (highlight V req w) as [[x w'] t]. exact H.
  - intros env w. split; reflexivity.
  - intros env V rs. induction rs as [|r rs IH]; intros w.
    + reflexivity.
    + cbn [serve]. rewrite handle_world. apply IH.
  - intros m mp H. discriminate H.
Qed.

(** ** Startup *)

(** C5. When the model path (given, or the default) does not exist, [main]
    logs two errors, the second telling how to download the model, and
    exits with status 1; it neither stores the path nor reaches
    [uvicorn.run]. *)
Theorem main_exits_when_model_missing (env : Env)
    (uvicorn_run : string -> Z -> M unit) (cl : CommandLine) (w : World) :
  path_exists env (args_model_path (parse_args env cl)) = false ->
  main env uvicorn_run cl w
  = (Raised (SystemExit 1), w,
     [LogError ("Model not found at: "
                +:+ args_model_path (parse_args env cl));
      LogError
        "Download it first: hf download zilliz/semantic-highlight-bilingual-v1"])
  /\ (exists code,
        outcome (main env uvicorn_run cl w) = Raised (SystemExit code)
        /\ code <> 0)
  /\ (forall host port,
        ~ In (UvicornRun host port) (events (main env uvicorn_run cl w))).
Proof.
  intros Hp.
  assert (E : main env uvicorn_run cl w
    = (Raised (SystemExit 1), w,
       [LogError ("Model not found at: "
                  +:+ args_model_path (parse_args env cl));
        LogError
          "Download it first: hf download zilliz/semantic-highlight-bilingual-v1"])).
  { unfold main. unfold bind at 1. rewrite Hp. reflexivity. }
  rewrite E. split; [reflexivity|]. split.
  - exists 1. split; [reflexivity|discriminate].
  - intros host port [H|[H|[]]]; discriminate H.
Qed.

Lemma main_exits_when_model_missing_witness :
  main example_env (lifespan_server example_env (ret tt))
    {| opt_port := None; opt_model_path := Some "/nowhere";
       opt_host := None |} initial_world
  = (Raised (SystemExit 1), initial_world,
     [LogError "Model not found at: /nowhere";
      LogError
        "Download it first: hf download zilliz/semantic-highlight-bilingual-v1"]).
Proof.
  apply (main_exits_when_model_missing example_env
           (lifespan_server example_env (ret tt))
           {| opt_port := None; opt_model_path := Some "/nowhere";
              opt_host := None |} initial_world).
  reflexivity.
Defined.

(** With the model in place [main] stores the path and runs the server,
    here one that runs the lifespan around an idle body. *)
Example main_starts_listener :
  main example_env (lifespan_server example_env (ret tt))
    {| opt_port := None; opt_model_path := Some "/models/shb";
       opt_host := None |} initial_world
  = (Returned tt,
     {| _model := None; model_path := Some "/models/shb" |},
     [LogInfo "Starting Titan Highlight Service on 127.0.0.1:8079";
      UvicornRun "127.0.0.1" 8079;
      LogInfo "Loading Zilliz semantic-highlight model from: /models/shb";
      FromPretrained "/models/shb";
      LogInfo "Model loaded on CPU";
      LogInfo "Model unloaded"]).
Proof. vm_compute. reflexivity. Qed.

(** * Further properties of the code *)

(** ** Startup of the lifespan *)

(** X1. A startup that returns has read the configured path, loaded a
    model from exactly that path and stored it: the loaded model itself on
    a host without GPU, the result of [.cuda()] on a host with one. The
    configured path is kept, and the log tells which device was used. *)
Theorem lifespan_startup_stores_loaded_model (env : Env) (w w' : World)
    (t : list Event) :
  lifespan_startup env w = (Returned tt, w', t) ->
  exists p m,
    model_path w = Some p /\
    from_pretrained env p = Returned m /\
    model_path w' = Some p /\
    if cuda_is_available env
    then exists m2,
           cuda env m = Returned m2 /\ _model w' = Some m2 /\
           t = [LogInfo (loading_message p); FromPretrained p; Cuda;
                LogInfo "Model loaded on GPU"]
    else _model w' = Some m /\
         t = [LogInfo (loading_message p); FromPretrained p;
              LogInfo "Model loaded on CPU"].
Proof.
  unfold lifespan_startup, bind, get_world.
  destruct (model_path w) as [p|] eqn:Hp; [|discriminate].
  unfold logger_info, emit, call, set_model, bind, get_world, put_world.
  destruct (from_pretrained env p) as [m|e] eqn:Hl; [|discriminate].
  destruct (cuda_is_available env); simpl.
  - destruct (cuda env m) as [m2|e] eqn:Hc; [|discriminate].
    intros H. injection H as <- <-. exists p, m.
    split; [reflexivity|]. split; [exact Hl|].
    split; [simpl; first [reflexivity | exact Hp]|].
    exists m2. split; [exact Hc|]. split; reflexivity.
  - intros H. injection H as <- <-. exists p, m.
    split; [reflexivity|]. split; [exact Hl|].
    split; [simpl; first [reflexivity | exact Hp]|].
    split; reflexivity.
Qed.

Lemma lifespan_startup_stores_loaded_model_witness :
  exists p m,
    model_path configured_world = Some p /\
    from_pretrained gpu_env p = Returned m /\
    model_path
      (world_after (lifespan_startup gpu_env configured_world)) = Some p /\
    exists m2,
      cuda gpu_env m = Returned m2 /\
      _model (world_after (lifespan_startup gpu_env configured_world))
      = Some m2 /\
      events (lifespan_startup gpu_env configured_world)
      = [LogInfo (loading_message p); FromPretrained p; Cuda;
         LogInfo "Model loaded on GPU"].
Proof.
  exact (lifespan_startup_stores_loaded_model gpu_env configured_world
           (world_after (lifespan_startup gpu_env configured_world))
           (events (lifespan_startup gpu_env configured_world)) eq_refl).
Defined.

(** X2. When loading raises, the startup raises the same exception right
    after the one load attempt: the state is as before (no model gets
    stored, a model held earlier stays), [.cuda()] is not called and no
    device line is logged. *)
Theorem lifespan_startup_load_failure (env : Env) (w : World) (p : string)
    (e : Exn) :
  model_path w = Some p ->
  from_pretrained env p = Raised e ->
  lifespan_startup env w
  = (Raised e, w, [LogInfo (loading_message p); FromPretrained p]) /\
  ~ In Cuda (events (lifespan_startup env w)) /\
  is_ready (world_after (lifespan_startup env w)) = is_ready w.
Proof.
  intros Hp Hl.
  assert (E : lifespan_startup env w
     = (Raised e, w, [LogInfo (loading_message p); FromPretrained p])).
  { unfold lifespan_startup, bind, get_world. rewrite Hp.
    unfold logger_info, emit, call. rewrite Hl. reflexivity. }
  rewrite E. split; [reflexivity|]. split; [|reflexivity].
  intros [H|[H|[]]]; discriminate H.
Qed.

Lemma lifespan_startup_load_failure_witness :
  lifespan_startup example_env
    {| _model := None; model_path := Some "/elsewhere" |}
  = (Raised (ExternalError "OSError"),
     {| _model := None; model_path := Some "/elsewhere" |},
     [LogInfo (loading_message "/elsewhere"); FromPretrained "/elsewhere"]).
Proof.
  apply (lifespan_startup_load_failure example_env
           {| _model := None; model_path := Some "/elsewhere" |}
           "/elsewhere" (ExternalError "OSError") eq_refl eq_refl).
Defined.

(** X3. On a host with a GPU, when the model loads but [.cuda()] raises,
    the startup raises that exception while the global already holds the
    model as loaded: line 50 assigned it before line 54 ran, and nothing
    takes it back. *)
Theorem lifespan_startup_cuda_failure (env : Env) (w : World) (p : string)
    (m : Model) (e : Exn) :
  model_path w = Some p ->
  from_pretrained env p = Returned m ->
  cuda_is_available env = true ->
  cuda env m = Raised e ->
  lifespan_startup env w
  = (Raised e, {| _model := Some m; model_path := Some p |},
     [LogInfo (loading_message p); FromPretrained p; Cuda]) /\
  is_ready (world_after (lifespan_startup env w)) = true.
Proof.
  intros Hp Hl Hg Hc.
  assert (E : lifespan_startup env w
     = (Raised e, {| _model := Some m; model_path := Some p |},
        [LogInfo (loading_message p); FromPretrained p; Cuda])).
  { unfold lifespan_startup, bind, get_world. rewrite Hp.
    unfold logger_info, emit, call, set_model, bind, get_world, put_world.
    rewrite Hl, Hg. simpl. rewrite Hc, Hp. reflexivity. }
  rewrite E. split; reflexivity.
Qed.

Lemma lifespan_startup_cuda_failure_witness :
  lifespan_startup gpu_failing_env configured_world
  = (Raised (ExternalError "OutOfMemoryError"),
     {| _model := Some example_model; model_path := Some "/models/shb" |},
     [LogInfo (loading_message "/models/shb"); FromPretrained "/models/shb";
      Cuda]).
Proof.
  apply (lifespan_startup_cuda_failure gpu_failing_env configured_world
           "/models/shb" example_model (ExternalError "OutOfMemoryError")
           eq_refl eq_refl eq_refl eq_refl).
Defined.

(** X4. The startup never changes the configured path, whether it returns
    or raises; and when no path was configured it raises [AttributeError]
    before anything is logged or loaded. *)
Theorem lifespan_startup_model_path (env : Env) (w : World) :
  model_path (world_after (lifespan_startup env w)) = model_path w /\
  (model_path w = None ->
   lifespan_startup env w = (Raised (AttributeError "model_path"), w, [])).
Proof.
  split.
  - unfold world_after, lifespan_startup, bind, get_world.
    destruct (model_path w) as [p|] eqn:Hp; [|simpl; congruence].
    unfold logger_info, emit, call, set_model, bind, get_world, put_world.
    destruct (from_pretrained env p) as [m|e]; [|simpl; congruence].
    destruct (cuda_is_available env); simpl.
    + destruct (cuda env m) as [m2|e]; simpl; congruence.
    + congruence.
  - intros Hp. unfold lifespan_startup, bind, get_world. rewrite Hp.
    reflexivity.
Qed.

Lemma lifespan_startup_model_path_witness :
  lifespan_startup example_env initial_world
  = (Raised (AttributeError "model_path"), initial_world, []).
Proof.
  destruct (lifespan_startup_model_path example_env initial_world)
    as [_ H].
  apply H. reflexivity.
Defined.

(** ** The entry point *)

(** With the path in place, [main] is its own two steps followed by the
    server, which starts in the state [main] prepared. *)
Lemma main_run_present (env : Env) (uvicorn_run : string -> Z -> M unit)
    (cl : CommandLine) (w : World) :
  path_exists env (args_model_path (parse_args env cl)) = true ->
  main env uvicorn_run cl w
  = (outcome
       (uvicorn_run (args_host (parse_args env cl))
          (args_port (parse_args env cl))
          {| _model := _model w;
             model_path := Some (args_model_path (parse_args env cl)) |}),
     world_after
       (uvicorn_run (args_host (parse_args env cl))
          (args_port (parse_args env cl))
          {| _model := _model w;
             model_path := Some (args_model_path (parse_args env cl)) |}),
     [LogInfo ("Starting Titan Highlight Service on "
               +:+ args_host (parse_args env cl)
               +:+ ":" +:+ pretty (args_port (parse_args env cl)));
      UvicornRun (args_host (parse_args env cl))
        (args_port (parse_args env cl))]
     ++ events
          (uvicorn_run (args_host (parse_args env cl))
             (args_port (parse_args env cl))
             {| _model := _model w;
                model_path := Some (args_model_path (parse_args env cl)) |})).
Proof.
  intros Hp. unfold main. unfold bind at 1. rewrite Hp.
  unfold set_model_path, logger_info, emit, bind, get_world, put_world, ret.
  simpl.
  destruct (uvicorn_run _ _ _) as [[r w2] t2]. reflexivity.
Qed.

Lemma main_run_missing (env : Env) (uvicorn_run : string -> Z -> M unit)
    (cl : CommandLine) (w : World) :
  path_exists env (args_model_path (parse_args env cl)) = false ->
  main env uvicorn_run cl w
  = (Raised (SystemExit 1), w,
     [LogError ("Model not found at: "
                +:+ args_model_path (parse_args env cl));
      LogError
        "Download it first: hf download zilliz/semantic-highlight-bilingual-v1"]).
Proof.
  intros Hp. unfold main. unfold bind at 1. rewrite Hp. reflexivity.
Qed.

(** X5. When the model path exists, [main] stores that path in the
    application state, logs one line naming host and port and hands over to
    [uvicorn.run] with the parsed host and port, in a state whose model
    reference is the one [main] found: [main] itself loads nothing. From
    there on the outcome, the final state and the further events of [main]
    are those of [uvicorn.run], whatever the server does. *)
Theorem main_configures_and_runs (env : Env)
    (uvicorn_run : string -> Z -> M unit) (cl : CommandLine) (w : World) :
  path_exists env (args_model_path (parse_args env cl)) = true ->
  exists w1,
    _model w1 = _model w /\
    model_path w1 = Some (args_model_path (parse_args env cl)) /\
    outcome (main env uvicorn_run cl w)
    = outcome (uvicorn_run (args_host (parse_args env cl))
                 (args_port (parse_args env cl)) w1) /\
    world_after (main env uvicorn_run cl w)
    = world_after (uvicorn_run (args_host (parse_args env cl))
                     (args_port (parse_args env cl)) w1) /\
    events (main env uvicorn_run cl w)
    = [LogInfo ("Starting Titan Highlight Service on "
                +:+ args_host (parse_args env cl)
                +:+ ":" +:+ pretty (args_port (parse_args env cl)));
       UvicornRun (args_host (parse_args env cl))
         (args_port (parse_args env cl))]
      ++ events (uvicorn_run (args_host (parse_args env cl))
                   (args_port (parse_args env cl)) w1).
Proof.
  intros Hp.
  exists {| _model := _model w;
            model_path := Some (args_model_path (parse_args env cl)) |}.
  rewrite (main_run_present env uvicorn_run cl w Hp).
  repeat split.
Qed.

(** A server that fails to start: [main] ends with the server's exit, after
    its own two events. *)
Lemma main_configures_and_runs_witness :
  exists w1,
    _model w1 = None /\
    model_path w1 = Some "/models/shb" /\
    outcome (main example_env (fun _ _ => raise (SystemExit 3))
               {| opt_port := Some 9000; opt_model_path := Some "/models/shb";
                  opt_host := Some "0.0.0.0" |} initial_world)
    = outcome ((raise (SystemExit 3) : M unit) w1) /\
    world_after (main example_env (fun _ _ => raise (SystemExit 3))
                   {| opt_port := Some 9000;
                      opt_model_path := Some "/models/shb";
                      opt_host := Some "0.0.0.0" |} initial_world)
    = world_after ((raise (SystemExit 3) : M unit) w1) /\
    events (main example_env (fun _ _ => raise (SystemExit 3))
              {| opt_port := Some 9000; opt_model_path := Some "/models/shb";
                 opt_host := Some "0.0.0.0" |} initial_world)
    = [LogInfo "Starting Titan Highlight Service on 0.0.0.0:9000";
       UvicornRun "0.0.0.0" 9000]
      ++ events ((raise (SystemExit 3) : M unit) w1).
Proof.
  exact (main_configures_and_runs example_env
           (fun _ _ => raise (SystemExit 3))
           {| opt_port := Some 9000; opt_model_path := Some "/models/shb";
              opt_host := Some "0.0.0.0" |} initial_world eq_refl).
Defined.

(** X6. [main] reaches [uvicorn.run] exactly when argparse accepts the
    arguments and the model path exists. When argparse exits, that exit is
    the outcome of [main], with nothing logged and the state unchanged; when
    argparse accepts and the path is missing, the outcome is
    [SystemExit(1)]. *)
Theorem main_runs_iff_model_present (env : Env)
    (uvicorn_run : string -> Z -> M unit)
    (argparse : list string -> Result CommandLine)
    (argv : list string) (w : World) :
  ((exists host port,
      In (UvicornRun host port)
        (events (main_argv env uvicorn_run argparse argv w)))
   <-> exists cl,
         argparse argv = Returned cl /\
         path_exists env (args_model_path (parse_args env cl)) = true) /\
  (forall e,
     argparse argv = Raised e ->
     main_argv env uvicorn_run argparse argv w = (Raised e, w, [])) /\
  (forall cl,
     argparse argv = Returned cl ->
     path_exists env (args_model_path (parse_args env cl)) = false ->
     outcome (main_argv env uvicorn_run argparse argv w)
     = Raised (SystemExit 1)).
Proof.
  unfold main_argv. destruct (argparse argv) as [cl|e] eqn:Ha.
  - destruct (path_exists env (args_model_path (parse_args env cl))) eqn:Hp.
    + split; [|split].
      * split.
        -- intros _. exists cl. split; [reflexivity | exact Hp].
        -- intros _. rewrite (main_run_present env uvicorn_run cl w Hp).
           do 2 eexists. unfold events at 1. simpl. right. left.
           reflexivity.
      * intros e He. discriminate He.
      * intros cl' Hcl Hp'. injection Hcl as <-. congruence.
    + rewrite (main_run_missing env uvicorn_run cl w Hp). split; [|split].
      * split.
        -- intros (host & port & [H|[H|[]]]); discriminate H.
        -- intros (cl' & Hcl & Hp'). injection Hcl as <-. congruence.
      * intros e He. discriminate He.
      * intros cl' _ _. reflexivity.
  - split; [|split].
    + split.
      * intros (host & port & []).
      * intros (cl & Hcl & _). discriminate Hcl.
    + intros e' He. injection He as <-. reflexivity.
    + intros cl Hcl. discriminate Hcl.
Qed.

(** An option argparse does not know ends [main] with argparse's exit
    status 2; a missing path ends it with status 1. *)
Lemma main_runs_iff_model_present_witness :
  main_argv example_env stub_server example_argparse ["--port"; "abc"]
    initial_world
  = (Raised (SystemExit 2), initial_world, []) /\
  outcome (main_argv example_env stub_server example_argparse
             ["--model-path"; "/nowhere"] initial_world)
  = Raised (SystemExit 1).
Proof.
  split.
  - destruct (main_runs_iff_model_present example_env stub_server
                example_argparse ["--port"; "abc"] initial_world)
      as (_ & H & _).
    apply H. reflexivity.
  - destruct (main_runs_iff_model_present example_env stub_server
                example_argparse ["--model-path"; "/nowhere"] initial_world)
      as (_ & _ & H).
    apply (H {| opt_port := None; opt_model_path := Some "/nowhere";
                opt_host := None |}); reflexivity.
Defined.

(** X7. The path [main] checked is the path the lifespan loads from: in
    the state [main] has prepared when it calls [uvicorn.run] (the state
    after a [main] whose server returns at once), the startup's first
    outside call is [from_pretrained] on that same path; and with a server
    that runs the lifespan, the events of [main] go on with that load right
    after the call of [uvicorn.run]. *)
Theorem main_then_startup_loads_checked_path (env : Env) (cl : CommandLine)
    (w : World) :
  path_exists env (args_model_path (parse_args env cl)) = true ->
  (exists t,
     events (lifespan_startup env (world_after (main env stub_server cl w)))
     = LogInfo (loading_message (args_model_path (parse_args env cl)))
       :: FromPretrained (args_model_path (parse_args env cl)) :: t) /\
  (forall serving : M unit, exists t,
     events (main env (lifespan_server env serving) cl w)
     = LogInfo ("Starting Titan Highlight Service on "
                +:+ args_host (parse_args env cl)
                +:+ ":" +:+ pretty (args_port (parse_args env cl)))
       :: UvicornRun (args_host (parse_args env cl))
            (args_port (parse_args env cl))
       :: LogInfo (loading_message (args_model_path (parse_args env cl)))
       :: FromPretrained (args_model_path (parse_args env cl)) :: t).
Proof.
  intros Hp.
  assert (Hstart : forall mo, exists t,
    events (lifespan_startup env
              {| _model := mo;
                 model_path := Some (args_model_path (parse_args env cl)) |})
    = LogInfo (loading_message (args_model_path (parse_args env cl)))
      :: FromPretrained (args_model_path (parse_args env cl)) :: t).
  { intros mo. unfold lifespan_startup, bind, get_world. simpl.
    unfold logger_info, emit, call, set_model, bind, get_world, put_world.
    destruct (from_pretrained env _) as [m|e]; [|eexists; reflexivity].
    destruct (cuda_is_available env); simpl.
    - destruct (cuda env m) as [m2|e]; eexists; reflexivity.
    - eexists. reflexivity. }
  split.
  - rewrite (main_run_present env stub_server cl w Hp).
    apply (Hstart (_model w)).
  - intros serving. rewrite (main_run_present env _ cl w Hp).
    unfold lifespan_server, lifespan. unfold events at 1. simpl.
    destruct (Hstart (_model w)) as [t Ht].
    unfold bind at 1.
    destruct (lifespan_startup env _) as [[[u|e] w1] t1];
      unfold events in Ht; simpl in Ht; subst t1.
    + match goal with |- context [match ?x with _ => _ end] =>
        destruct x as [[r2 w2] t2] end.
      unfold events. simpl. eexists. reflexivity.
    + unfold events. simpl. eexists. reflexivity.
Qed.

Lemma main_then_startup_loads_checked_path_witness :
  exists t,
    events
      (lifespan_startup example_env
         (world_after
            (main example_env stub_server
               {| opt_port := None; opt_model_path := Some "/models/shb";
                  opt_host := None |} initial_world)))
    = LogInfo (loading_message "/models/shb")
      :: FromPretrained "/models/shb" :: t.
Proof.
  apply (main_then_startup_loads_checked_path example_env
           {| opt_port := None; opt_model_path := Some "/models/shb";
              opt_host := None |} initial_world).
  reflexivity.
Defined.

(** ** Edge cases of the handlers *)

(** X8. A request calls the model exactly once when a model is held and
    not at all otherwise, and does nothing else outside: the handler's
    events are that one call, or none. The call is made on the request's
    own four fields: with the model [m] held, the handler's outcome is what
    [process m] returns for exactly these fields, an exception as it is and
    a result mapped into the response. *)
Theorem highlight_calls_model_at_most_once (V : Validators)
    (req : HighlightRequest) (w : World) :
  events (highlight V req w)
  = (if is_ready w
     then [Process (question req) (context req) (threshold req)
             (return_sentence_metrics req)]
     else []) /\
  (forall m,
     _model w = Some m ->
     outcome (highlight V req w)
     = match process m (question req) (context req) (threshold req)
               (return_sentence_metrics req) with
       | Raised e => Raised e
       | Returned result => outcome (map_result V result w)
       end).
Proof.
  split.
  - unfold is_ready. destruct (_model w) as [m|] eqn:Hm.
    + rewrite (highlight_present_run V req w m Hm). reflexivity.
    + rewrite (highlight_absent_unfold V req w Hm).
      unfold HighlightResponse_init, ret, raise.
      set (a := validate_list_str V _).
      set (b := validate_float V _).
      set (c := validate_list_float V _).
      destruct a, b, c; reflexivity.
  - intros m Hm. rewrite (highlight_present_run V req w m Hm). reflexivity.
Qed.

(** The model that echoes its arguments reports the request's fields,
    threshold 7.5 included. *)
Lemma highlight_calls_model_at_most_once_witness :
  outcome (highlight strict_validators
             {| question := "q"; context := "c"; threshold := 7.5%float;
                return_sentence_metrics := false |}
             (loaded_world echo_model))
  = Returned {| highlighted_sentences := ["q"; "c"];
                compression_rate := 7.5%float;
                sentence_probabilities := [] |}.
Proof.
  destruct (highlight_calls_model_at_most_once strict_validators
              {| question := "q"; context := "c"; threshold := 7.5%float;
                 return_sentence_metrics := false |}
              (loaded_world echo_model)) as [_ H].
  rewrite (H echo_model eq_refl). vm_compute. reflexivity.
Defined.

(** X9. When the model returns something that is not a dict, [.get] is
    missing: the handler raises [AttributeError] after the one call, builds
    no response and leaves the state alone. *)
Theorem highlight_non_dict_result (V : Validators) (req : HighlightRequest)
    (w : World) (m : Model) (v : PyVal) :
  _model w = Some m ->
  process m (question req) (context req) (threshold req)
    (return_sentence_metrics req) = Returned (OValue v) ->
  highlight V req w
  = (Raised (AttributeError "get"), w,
     [Process (question req) (context req) (threshold req)
        (return_sentence_metrics req)]).
Proof.
  intros Hm Hp. rewrite (highlight_present_unfold V req w m Hm).
  unfold bind at 1. unfold call_process, call. rewrite Hp. reflexivity.
Qed.

Lemma highlight_non_dict_result_witness :
  highlight strict_validators example_request (loaded_world list_model)
  = (Raised (AttributeError "get"), loaded_world list_model,
     [Process "What is Titan?" "A. B. C. D." 0.5%float true]).
Proof.
  apply (highlight_non_dict_result strict_validators example_request
           (loaded_world list_model) list_model (PyList [PyStr "A."])
           eq_refl eq_refl).
Defined.

(** X10. The defaults stand in for missing keys only: a key that is
    present with a value its field rejects makes the handler raise
    [ValidationError]; the default is not used in its place. *)
Theorem highlight_rejected_value_not_defaulted (V : Validators)
    (req : HighlightRequest) (w : World) (m : Model)
    (d : gmap string PyVal) (v : PyVal) :
  _model w = Some m ->
  process m (question req) (context req) (threshold req)
    (return_sentence_metrics req) = Returned (ODict d) ->
  (d !! "highlighted_sentences" = Some v /\ validate_list_str V v = None) \/
  (d !! "compression_rate" = Some v /\ validate_float V v = None) \/
  (d !! "sentence_probabilities" = Some v /\
   validate_list_float V v = None) ->
  highlight V req w
  = (Raised (ValidationError "HighlightResponse"), w,
     [Process (question req) (context req) (threshold req)
        (return_sentence_metrics req)]).
Proof.
  intros Hm Hp Hbad. rewrite (highlight_dict V req w m d Hm Hp).
  unfold HighlightResponse_init, ret, raise.
  set (a := validate_list_str V _).
  set (b := validate_float V _).
  set (c := validate_list_float V _).
  destruct Hbad as [[E N]|[[E N]|[E N]]].
  - assert (Ha : a = None) by (subst a; rewrite E; exact N).
    rewrite Ha. reflexivity.
  - assert (Hb : b = None) by (subst b; rewrite E; exact N).
    rewrite Hb. destruct a; reflexivity.
  - assert (Hc : c = None) by (subst c; rewrite E; exact N).
    rewrite Hc. destruct a, b; reflexivity.
Qed.

Lemma none_result_lookup :
  <["sentence_probabilities" := PyNone]> example_result
    !! "sentence_probabilities" = Some PyNone.
Proof. apply lookup_insert_eq. Qed.

Lemma highlight_rejected_value_not_defaulted_witness :
  highlight strict_validators example_request (loaded_world none_model)
  = (Raised (ValidationError "HighlightResponse"), loaded_world none_model,
     [Process "What is Titan?" "A. B. C. D." 0.5%float true]).
Proof.
  apply (highlight_rejected_value_not_defaulted strict_validators
           example_request (loaded_world none_model) none_model
           (<["sentence_probabilities" := PyNone]> example_result) PyNone
           eq_refl eq_refl).
  right. right. split; [exact none_result_lookup | reflexivity].
Defined.

(** X11. A body without [question] or without [context] is refused with
    [ValidationError] before the handler runs: the model is not called,
    even when one is held, and the state is as before. *)
Theorem post_highlight_missing_required (V : Validators)
    (RV : RequestValidators) (b : gmap string PyVal) (w : World) :
  b !! "question" = None \/ b !! "context" = None ->
  post_highlight V RV b w
  = (Raised (ValidationError "HighlightRequest"), w, []).
Proof.
  intros H. unfold post_highlight, bind, HighlightRequest_init.
  destruct H as [H|H]; rewrite H; simpl.
  - reflexivity.
  - destruct (b !! "question" ≫= validate_str RV); reflexivity.
Qed.

Lemma incomplete_body_lookup : incomplete_body !! "context" = None.
Proof. vm_compute. reflexivity. Qed.

Lemma post_highlight_missing_required_witness :
  post_highlight strict_validators strict_request_validators
    incomplete_body (loaded_world example_model)
  = (Raised (ValidationError "HighlightRequest"),
     loaded_world example_model, []).
Proof.
  apply (post_highlight_missing_required strict_validators
           strict_request_validators incomplete_body
           (loaded_world example_model)).
  right. exact incomplete_body_lookup.
Defined.

(** X12. The body of [/health] has exactly the three keys [status],
    [model_loaded] and [gpu_available], and [gpu_available] is what
    [torch.cuda.is_available()] says, whether or not a model is held. *)
Theorem health_body_keys (env : Env) (w : World) :
  exists body,
    outcome (health env w) = Returned body /\
    dom body = ({["status"; "model_loaded"; "gpu_available"]} : gset string) /\
    body !! "gpu_available" = Some (PyBool (cuda_is_available env)).
Proof.
  eexists. split; [reflexivity|]. split.
  - rewrite !dom_insert_L, dom_empty_L. set_solver.
  - rewrite lookup_insert_ne by discriminate.
    rewrite lookup_insert_ne by discriminate.
    apply lookup_insert_eq.
Qed.

(** ** The lifespan around its body *)

(** X13. When the startup and the body both return, the lifespan runs the
    cleanup after the body: the body's value is returned, no model is held
    afterwards, the configured path is the body's, and ["Model unloaded"]
    is the last line logged. *)
Theorem lifespan_cleans_up_after_body {A : Type} (env : Env)
    (serving : M A) (w w1 w2 : World) (t1 t2 : list Event) (a : A) :
  lifespan_startup env w = (Returned tt, w1, t1) ->
  serving w1 = (Returned a, w2, t2) ->
  lifespan env serving w
  = (Returned a, {| _model := None; model_path := model_path w2 |},
     t1 ++ t2 ++ [LogInfo "Model unloaded"]).
Proof.
  intros Hs Hb. unfold lifespan. unfold bind at 1. rewrite Hs.
  unfold bind at 1. rewrite Hb.
  unfold bind at 1. rewrite lifespan_cleanup_run.
  unfold ret. rewrite app_nil_r. reflexivity.
Qed.

Lemma lifespan_cleans_up_after_body_witness :
  lifespan example_env (health example_env) configured_world
  = (outcome (health example_env (loaded_world example_model)),
     configured_world,
     [LogInfo (loading_message "/models/shb"); FromPretrained "/models/shb";
      LogInfo "Model loaded on CPU"] ++ [] ++ [LogInfo "Model unloaded"]).
Proof.
  exact (lifespan_cleans_up_after_body example_env (health example_env)
           configured_world (loaded_world example_model)
           (loaded_world example_model) _ [] _ eq_refl eq_refl).
Defined.

(** X14. There is no [try]/[finally] around [yield]: when the body raises,
    the lifespan raises the same exception and the cleanup does not run, so
    the state is the one the body left (a model it held is still held) and
    ["Model unloaded"] is not logged. When the startup itself raises, the
    body does not run at all. *)
Theorem lifespan_skips_cleanup_on_exception {A : Type} (env : Env)
    (serving : M A) (w w1 : World) (t1 : list Event) :
  (forall w2 t2 e,
     lifespan_startup env w = (Returned tt, w1, t1) ->
     serving w1 = (Raised e, w2, t2) ->
     lifespan env serving w = (Raised e, w2, t1 ++ t2)) /\
  (forall e,
     lifespan_startup env w = (Raised e, w1, t1) ->
     lifespan env serving w = (Raised e, w1, t1)).
Proof.
  split.
  - intros w2 t2 e Hs Hb. unfold lifespan. unfold bind at 1. rewrite Hs.
    unfold bind at 1. rewrite Hb. reflexivity.
  - intros e Hs. unfold lifespan. unfold bind at 1. rewrite Hs.
    reflexivity.
Qed.

(** A body that raises leaves the model held; a startup that raises is the
    whole run. *)
Lemma lifespan_skips_cleanup_on_exception_witness :
  lifespan example_env (raise (ExternalError "CancelledError") : M unit)
    configured_world
  = (Raised (ExternalError "CancelledError"), loaded_world example_model,
     [LogInfo (loading_message "/models/shb"); FromPretrained "/models/shb";
      LogInfo "Model loaded on CPU"] ++ []) /\
  lifespan gpu_failing_env
    (highlight strict_validators example_request) configured_world
  = (Raised (ExternalError "OutOfMemoryError"),
     {| _model := Some example_model; model_path := Some "/models/shb" |},
     [LogInfo (loading_message "/models/shb"); FromPretrained "/models/shb";
      Cuda]).
Proof.
  split.
  - destruct (lifespan_skips_cleanup_on_exception example_env
                (raise (ExternalError "CancelledError") : M unit)
                configured_world (loaded_world example_model)
                [LogInfo (loading_message "/models/shb");
                 FromPretrained "/models/shb";
                 LogInfo "Model loaded on CPU"]) as [H _].
    apply (H (loaded_world example_model) []
             (ExternalError "CancelledError")); reflexivity.
  - destruct (lifespan_skips_cleanup_on_exception gpu_failing_env
                (highlight strict_validators example_request)
                configured_world
                {| _model := Some example_model;
                   model_path := Some "/models/shb" |}
                [LogInfo (loading_message "/models/shb");
                 FromPretrained "/models/shb"; Cuda]) as [_ H].
    apply (H (ExternalError "OutOfMemoryError")). reflexivity.
Defined.

(** X15. The cleanup logs ["Model unloaded"] every time it runs, also
    when no model was held: [n] cleanups in a row log the line [n] times. *)
Theorem repeat_cleanup_logs_each_time (n : nat) (w : World) :
  events (repeat_cleanup n w) = replicate n (LogInfo "Model unloaded").
Proof.
  revert w. induction n as [|n IH]; intros w; [reflexivity|].
  rewrite repeat_cleanup_S.
  specialize (IH {| _model := None; model_path := model_path w |}).
  destruct (repeat_cleanup n _) as [[r w2] t2].
  unfold events in *. simpl in *. rewrite IH. reflexivity.
Qed.
